(** * KairyxAI: the decision path of the operator console

    A shallow embedding of the code that turns an oracle recommendation into
    a recorded action:

    - [types.ts]: [PlayerSegment], [Player], [SafetyConstraints];
    - [constants.tsx]: [DEFAULT_SAFETY_CONSTRAINTS], [MOCK_PLAYERS];
    - [services/gemini.ts]: [analyzePlayerData], [normalizeRawData];
    - [components/PlayerInspector.tsx]: [handleRunAIAnalysis];
    - [App.tsx]: the [useState] cells and [handleActionTriggered].

    JavaScript values are an inductive type, an exception is an explicit
    [Throw] result, and React state is a record threaded through the
    handlers.  What the code cannot decide by itself comes from outside: the
    reading of the wall clock and the answer of the generative model are
    inputs of each evaluation, and the runtime's [JSON.parse] is a parameter
    of the handlers. *)

From Stdlib Require Import List String Ascii Bool ZArith QArith Lia.
From Stdlib Require Import Sorted DecimalString DecimalNat.
Import ListNotations.
Open Scope string_scope.
Open Scope Z_scope.

Set Warnings "-register-all".

(** ** JavaScript values *)

(** What [JSON.parse] can return, plus [undefined], which a property read
    can.  A number is kept as the exact rational its literal denotes (the
    rounding to a double is not modelled; nothing below depends on it).  An
    object is its list of own properties in insertion order. *)
Inductive JsValue : Type :=
| JUndefined
| JNull
| JBool (b : bool)
| JNum (q : Q)
| JStr (s : string)
| JArr (items : list JsValue)
| JObj (props : list (string * JsValue)).

Definition Props := list (string * JsValue).

(** [ToBoolean]: [undefined], [null], [false], [0] and the empty string are
    falsy, every array and object is truthy. *)
Definition truthy (v : JsValue) : bool :=
  match v with
  | JUndefined | JNull => false
  | JBool b => b
  | JNum q => negb (Qeq_bool q 0)
  | JStr s => negb (String.eqb s "")
  | JArr _ | JObj _ => true
  end.

Fixpoint props_get (ps : Props) (k : string) : JsValue :=
  match ps with
  | [] => JUndefined
  | (k', v) :: ps' => if String.eqb k' k then v else props_get ps' k
  end.

(** Defining a property: an existing key keeps its place and takes the new
    value, a new key goes last. *)
Fixpoint props_set (ps : Props) (k : string) (v : JsValue) : Props :=
  match ps with
  | [] => [(k, v)]
  | (k', v') :: ps' =>
      if String.eqb k' k then (k', v) :: ps' else (k', v') :: props_set ps' k v
  end.

(** Results of code that can throw. *)
Inductive Completion (A : Type) : Type :=
| Return (a : A)
| Throw (err : string).
Arguments Return {A} a.
Arguments Throw {A} err.

Definition bind {A B} (c : Completion A) (k : A -> Completion B) : Completion B :=
  match c with
  | Return a => k a
  | Throw e => Throw e
  end.

Notation "x <- c ;; k" := (bind c (fun x => k))
  (at level 61, c at next level, right associativity).

(** [v.k] for the property names this code reads ([actionNeeded],
    [recommendedAction], [confidence], [primaryReason], [reasoningChain],
    [priorityAlignment]): none of them is an inherited property of a
    primitive or of an array, so only an object can answer with something
    other than [undefined]; reading from [undefined] or [null] throws. *)
Definition get_prop (v : JsValue) (k : string) : Completion JsValue :=
  match v with
  | JUndefined | JNull => Throw "TypeError"
  | JObj ps => Return (props_get ps k)
  | _ => Return JUndefined
  end.

Definition index_key (n : nat) : string :=
  NilEmpty.string_of_uint (Nat.to_uint n).

Fixpoint indexed (n : nat) (vs : list JsValue) : Props :=
  match vs with
  | [] => []
  | v :: vs' => (index_key n, v) :: indexed (S n) vs'
  end.

Fixpoint chars (s : string) : list JsValue :=
  match s with
  | EmptyString => []
  | String c s' => JStr (String c EmptyString) :: chars s'
  end.

(** The own enumerable properties that [{...v}] copies: those of an object,
    the indices of an array or of a string, nothing for the rest. *)
Definition own_props (v : JsValue) : Props :=
  match v with
  | JObj ps => ps
  | JArr vs => indexed 0 vs
  | JStr s => indexed 0 (chars s)
  | _ => []
  end.

(** ** [JSON.parse]

    The runtime's parser is not code of this repository.  The handlers
    below take it as a parameter; [Json.parse] is a reading of the JSON
    grammar (RFC 8259) used to run them on concrete texts. *)
Module Json.

Definition is_ws (c : ascii) : bool :=
  match c with
  | " "%char | "009"%char | "010"%char | "013"%char => true
  | _ => false
  end.

Fixpoint skip_ws (s : list ascii) : list ascii :=
  match s with
  | c :: s' => if is_ws c then skip_ws s' else s
  | [] => []
  end.

Definition digit (c : ascii) : option Z :=
  let n := Z.of_nat (nat_of_ascii c) in
  if (48 <=? n) && (n <=? 57) then Some (n - 48) else None.

Definition hex (c : ascii) : option Z :=
  let n := Z.of_nat (nat_of_ascii c) in
  if (48 <=? n) && (n <=? 57) then Some (n - 48)
  else if (65 <=? n) && (n <=? 70) then Some (n - 55)
  else if (97 <=? n) && (n <=? 102) then Some (n - 87)
  else None.

Definition byte (n : Z) : ascii := ascii_of_nat (Z.to_nat n).

(** A [\uXXXX] code unit as the bytes of its UTF-8 form. *)
Definition utf8 (n : Z) : list ascii :=
  if n <? 128 then [byte n]
  else if n <? 2048 then [byte (192 + n / 64); byte (128 + n mod 64)]
  else [byte (224 + n / 4096); byte (128 + (n / 64) mod 64);
        byte (128 + n mod 64)].

Definition quote : ascii := "034"%char.
Definition backslash : ascii := "092"%char.

Definition unescape (e : ascii) : option ascii :=
  if Ascii.eqb e quote then Some quote
  else if Ascii.eqb e backslash then Some backslash
  else match e with
       | "/"%char => Some "/"%char
       | "b"%char => Some "008"%char
       | "f"%char => Some "012"%char
       | "n"%char => Some "010"%char
       | "r"%char => Some "013"%char
       | "t"%char => Some "009"%char
       | _ => None
       end.

(** The characters after an opening quote, up to the closing one;
    [acc] holds the decoded characters, last first. *)
Fixpoint string_body (s acc : list ascii) : option (list ascii * list ascii) :=
  match s with
  | [] => None
  | c :: r =>
      if Ascii.eqb c quote then Some (rev acc, r)
      else if Ascii.eqb c backslash then
        match r with
        | [] => None
        | "u"%char :: a :: b :: c' :: d :: r' =>
            match hex a, hex b, hex c', hex d with
            | Some x, Some y, Some z, Some w =>
                string_body r'
                  (rev (utf8 (((x * 16 + y) * 16 + z) * 16 + w)) ++ acc)
            | _, _, _, _ => None
            end
        | e :: r' =>
            match unescape e with
            | Some x => string_body r' (x :: acc)
            | None => None
            end
        end
      else if (nat_of_ascii c <? 32)%nat then None
      else string_body r (c :: acc)
  end.

(** A run of digits: its value after [acc], how many there were, the rest. *)
Fixpoint digits (s : list ascii) (acc : Z) (n : nat) : Z * nat * list ascii :=
  match s with
  | c :: r =>
      match digit c with
      | Some d => digits r (acc * 10 + d) (S n)
      | None => (acc, n, s)
      end
  | [] => (acc, n, s)
  end.

(** [m * 10^e] as a reduced fraction. *)
Definition scale (m e : Z) : Q :=
  if 0 <=? e then inject_Z (m * 10 ^ e)
  else Qred (Qmake m (Z.to_pos (10 ^ (- e)))).

Definition exponent (s : list ascii) : option (Z * list ascii) :=
  match s with
  | ("e" | "E")%char :: r =>
      let '(sg, r1) := match r with
                       | "-"%char :: r1 => (-1, r1)
                       | "+"%char :: r1 => (1, r1)
                       | _ => (1, r)
                       end in
      match digits r1 0 0 with
      | (_, O, _) => None
      | (x, _, r2) => Some (sg * x, r2)
      end
  | _ => Some (0, s)
  end.

Definition fraction (s : list ascii) : option (Z * nat * list ascii) :=
  match s with
  | "."%char :: r =>
      match digits r 0 0 with
      | (_, O, _) => None
      | res => Some res
      end
  | _ => Some (0, O, s)
  end.

(** An optional minus sign, an integer part without a leading zero (or
    the single digit zero), an optional fraction, an optional exponent. *)
Definition number (s : list ascii) : option (JsValue * list ascii) :=
  let '(sg, s1) := match s with
                   | "-"%char :: s1 => (-1, s1)
                   | _ => (1, s)
                   end in
  match s1 with
  | [] => None
  | c :: _ =>
      match digits s1 0 0 with
      | (_, O, _) => None
      | (i, ni, s2) =>
          if Ascii.eqb c "0"%char && negb (Nat.eqb ni 1) then None
          else
            match fraction s2 with
            | None => None
            | Some (f, nf, s3) =>
                match exponent s3 with
                | None => None
                | Some (e, s4) =>
                    let m := sg * (i * 10 ^ Z.of_nat nf + f) in
                    Some (JNum (scale m (e - Z.of_nat nf)), s4)
                end
            end
      end
  end.

Fixpoint value (fuel : nat) (s : list ascii) : option (JsValue * list ascii) :=
  match fuel with
  | O => None
  | S fuel' =>
      match skip_ws s with
      | [] => None
      | "n"%char :: "u"%char :: "l"%char :: "l"%char :: r => Some (JNull, r)
      | "t"%char :: "r"%char :: "u"%char :: "e"%char :: r => Some (JBool true, r)
      | "f"%char :: "a"%char :: "l"%char :: "s"%char :: "e"%char :: r =>
          Some (JBool false, r)
      | "["%char :: r =>
          match skip_ws r with
          | "]"%char :: r' => Some (JArr [], r')
          | _ => elements fuel' r []
          end
      | "{"%char :: r =>
          match skip_ws r with
          | "}"%char :: r' => Some (JObj [], r')
          | _ => members fuel' r []
          end
      | c :: r =>
          if Ascii.eqb c quote then
            match string_body r [] with
            | Some (cs, r') => Some (JStr (string_of_list_ascii cs), r')
            | None => None
            end
          else number (c :: r)
      end
  end
with elements (fuel : nat) (s : list ascii) (acc : list JsValue)
  : option (JsValue * list ascii) :=
  match fuel with
  | O => None
  | S fuel' =>
      match value fuel' s with
      | None => None
      | Some (v, r) =>
          match skip_ws r with
          | ","%char :: r' => elements fuel' r' (v :: acc)
          | "]"%char :: r' => Some (JArr (rev (v :: acc)), r')
          | _ => None
          end
      end
  end
with members (fuel : nat) (s : list ascii) (acc : Props)
  : option (JsValue * list ascii) :=
  match fuel with
  | O => None
  | S fuel' =>
      match skip_ws s with
      | c :: r =>
          if Ascii.eqb c quote then
            match string_body r [] with
            | None => None
            | Some (k, r1) =>
                match skip_ws r1 with
                | ":"%char :: r2 =>
                    match value fuel' r2 with
                    | None => None
                    | Some (v, r3) =>
                        let acc' := props_set acc (string_of_list_ascii k) v in
                        match skip_ws r3 with
                        | ","%char :: r4 => members fuel' r4 acc'
                        | "}"%char :: r4 => Some (JObj acc', r4)
                        | _ => None
                        end
                    end
                | _ => None
                end
            end
          else None
      | [] => None
      end
  end.

(** One value, white space around it, nothing else.  Every recursive call
    is made after at least one character was read, so the length of the
    text bounds the depth. *)
Definition parse (text : string) : option JsValue :=
  let s := list_ascii_of_string text in
  match value (2 * List.length s + 2) s with
  | Some (v, r) => match skip_ws r with [] => Some v | _ => None end
  | None => None
  end.

End Json.

(** A JSON text is written here without quote characters of its own: [jstr]
    puts a word between double quotes. *)
Definition jstr (s : string) : string :=
  String Json.quote s ++ String Json.quote EmptyString.

(** ** [types.ts] *)

Inductive PlayerSegment : Type :=
| WHALE | DOLPHIN | MINNOW | FREE_TO_PLAY | AT_RISK | CHURNED.

Definition PlayerSegment_eqb (a b : PlayerSegment) : bool :=
  match a, b with
  | WHALE, WHALE | DOLPHIN, DOLPHIN | MINNOW, MINNOW
  | FREE_TO_PLAY, FREE_TO_PLAY | AT_RISK, AT_RISK | CHURNED, CHURNED => true
  | _, _ => false
  end.

Module GameEvent.
Record t : Type := {
  timestamp : string;
  type : string;
  value : option Q;
  metadata : Props
}.
End GameEvent.

Record Player : Type := {
  id : string;
  name : string;
  joinDate : string;
  lastActive : string;
  level : Z;
  totalSpent : Q;
  sessionCount : Z;
  retentionScore : Z;
  segment : PlayerSegment;
  intent : string;
  recentEvents : list GameEvent.t
}.

(** A [number] that counts is a [Z], one that holds dollars is a [Q]. *)
Record SafetyConstraints : Type := {
  maxActionsPerPlayerPerWeek : Z;
  maxRewardValueUSD : Q;
  blacklistedSegments : list PlayerSegment;
  complianceEnabled : bool;
  budgetCapDaily : Q
}.

(** The environment object [{ dau: 12000, retention: 40 }] that the
    inspector passes for [metrics]. *)
Record Environment : Type := { dau : Z; retention : Z }.

(** ** [constants.tsx] *)

Definition DEFAULT_SAFETY_CONSTRAINTS : SafetyConstraints := {|
  maxActionsPerPlayerPerWeek := 1;
  maxRewardValueUSD := 25;
  blacklistedSegments := [CHURNED];
  complianceEnabled := true;
  budgetCapDaily := 1000
|}.

(** The three players of [MOCK_PLAYERS], named after their [name]. *)
Definition alex : Player :=
  {| id := "p_8921"; name := "Alex G."; joinDate := "2023-11-15";
     lastActive := "2024-05-20T14:30:00Z"; level := 42;
     totalSpent := 2501 # 2; sessionCount := 154; retentionScore := 88;
     segment := WHALE; intent := "Competitive progression seeker";
     recentEvents := [
       {| GameEvent.timestamp := "2024-05-20T14:25:00Z";
          GameEvent.type := "PURCHASE"; GameEvent.value := Some (1999 # 100);
          GameEvent.metadata := [("item", JStr "Season Pass")] |};
       {| GameEvent.timestamp := "2024-05-20T14:10:00Z";
          GameEvent.type := "GUILD_WAR"; GameEvent.value := None;
          GameEvent.metadata := [("result", JStr "WIN")] |} ] |}.

Definition sam : Player :=
  {| id := "p_1102"; name := "Sam K."; joinDate := "2024-01-10";
     lastActive := "2024-05-18T09:00:00Z"; level := 12;
     totalSpent := 0; sessionCount := 8; retentionScore := 25;
     segment := AT_RISK; intent := "Casual social explorer";
     recentEvents := [
       {| GameEvent.timestamp := "2024-05-18T08:50:00Z";
          GameEvent.type := "LEVEL_UP"; GameEvent.value := None;
          GameEvent.metadata := [("from", JNum 11); ("to", JNum 12)] |};
       {| GameEvent.timestamp := "2024-05-18T08:45:00Z";
          GameEvent.type := "AD_WATCH"; GameEvent.value := None;
          GameEvent.metadata := [("provider", JStr "IronSource")] |} ] |}.

Definition jordan : Player :=
  {| id := "p_5543"; name := "Jordan L."; joinDate := "2024-04-01";
     lastActive := "2024-05-20T11:00:00Z"; level := 28;
     totalSpent := 45; sessionCount := 44; retentionScore := 72;
     segment := DOLPHIN; intent := "Value-driven optimizer";
     recentEvents := [
       {| GameEvent.timestamp := "2024-05-20T10:45:00Z";
          GameEvent.type := "QUEST_COMPLETE"; GameEvent.value := None;
          GameEvent.metadata := [("quest_id", JStr "daily_4")] |} ] |}.

Definition MOCK_PLAYERS : list Player := [alex; sam; jordan].

(** ** The generative model, seen from [services/gemini.ts] *)

(** What a prompt is built from; the template text around it is constant. *)
Inductive Contents : Type :=
| AnalysisPrompt (player : Player) (metrics : Environment)
    (constraints : SafetyConstraints)
| NormalizePrompt (rawData : string).

Record GenerateContentRequest : Type := {
  model : string;
  contents : Contents
}.

(** The awaited call either rejects or resolves to a response, whose
    [text] may be [undefined]. *)
Inductive GenerateContentResult : Type :=
| Rejected (err : string)
| Response (text : option string).

(** [this.ai.models]: how the model answers a request is not decided by
    this code, so it is a field of the service. *)
Record GeminiService : Type := {
  generateContent : GenerateContentRequest -> GenerateContentResult
}.

(** [response.text || d] *)
Definition text_or (text : option string) (d : string) : string :=
  match text with
  | Some s => if String.eqb s "" then d else s
  | None => d
  end.

(** ** React state *)

(** The object literal in [handleRunAIAnalysis]: the properties spread from
    [result.recommendedAction], then six keys of its own.  A key of its own
    wins over a spread key of the same name, so [spread] is only consulted
    for other names (see [spread_prop]).  [timestamp] is the instant, in
    milliseconds since the epoch, that [new Date().toISOString()] renders. *)
Record Action : Type := {
  spread : Props;
  playerId : string;
  playerName : string;
  timestamp : Z;
  confidence : JsValue;
  reasoning : JsValue;
  status : string
}.

(** [action.k] for a name [k] other than [playerId], [playerName],
    [timestamp], [confidence], [reasoning] and [status]. *)
Definition spread_prop (a : Action) (k : string) : JsValue :=
  props_get (spread a) k.

(** [{ ...result, player }] *)
Record Analysis : Type := {
  result_props : Props;
  analysis_player : Player
}.

(** The [useState] cells of [App] and of [PlayerInspector] that the decision
    path reads or writes ([searchTerm] and [thoughtStep] only drive the
    rendering). *)
Record State : Type := {
  activeTab : string;
  executedActions : list Action;
  constraints : SafetyConstraints;
  analyzingPlayerId : option string;
  currentAnalysis : option Analysis
}.

Definition initial_state : State := {|
  activeTab := "dashboard";
  executedActions := [];
  constraints := DEFAULT_SAFETY_CONSTRAINTS;
  analyzingPlayerId := None;
  currentAnalysis := None
|}.

Definition setActiveTab (tab : string) (st : State) : State :=
  {| activeTab := tab;
     executedActions := executedActions st;
     constraints := constraints st;
     analyzingPlayerId := analyzingPlayerId st;
     currentAnalysis := currentAnalysis st |}.

Definition setExecutedActions (f : list Action -> list Action) (st : State)
  : State :=
  {| activeTab := activeTab st;
     executedActions := f (executedActions st);
     constraints := constraints st;
     analyzingPlayerId := analyzingPlayerId st;
     currentAnalysis := currentAnalysis st |}.

Definition setConstraints (c : SafetyConstraints) (st : State) : State :=
  {| activeTab := activeTab st;
     executedActions := executedActions st;
     constraints := c;
     analyzingPlayerId := analyzingPlayerId st;
     currentAnalysis := currentAnalysis st |}.

Definition setAnalyzingPlayerId (p : option string) (st : State) : State :=
  {| activeTab := activeTab st;
     executedActions := executedActions st;
     constraints := constraints st;
     analyzingPlayerId := p;
     currentAnalysis := currentAnalysis st |}.

Definition setCurrentAnalysis (a : option Analysis) (st : State) : State :=
  {| activeTab := activeTab st;
     executedActions := executedActions st;
     constraints := constraints st;
     analyzingPlayerId := analyzingPlayerId st;
     currentAnalysis := a |}.

(** [App.handleActionTriggered] *)
Definition handleActionTriggered (action : Action) (st : State) : State :=
  setActiveTab "actions" (setExecutedActions (fun prev => action :: prev) st).

Section Gateway.

(** The runtime's [JSON.parse]: [None] when it throws. *)
Variable JSON_parse : string -> option JsValue.

(** ** [services/gemini.ts] *)

Definition analyzePlayerData (svc : GeminiService) (player : Player)
    (metrics : Environment) (constraints : SafetyConstraints)
  : Completion JsValue :=
  match generateContent svc
          {| model := "gemini-3-pro-preview";
             contents := AnalysisPrompt player metrics constraints |} with
  | Rejected err => Throw err
  | Response text =>
      match JSON_parse (text_or text "{}") with
      | Some v => Return v
      | None => Return JNull
      end
  end.

Definition normalizeRawData (svc : GeminiService) (rawData : string)
  : Completion JsValue :=
  match generateContent svc
          {| model := "gemini-3-flash-preview";
             contents := NormalizePrompt rawData |} with
  | Rejected err => Throw err
  | Response text =>
      match JSON_parse (text_or text "{}") with
      | Some v => Return v
      | None =>
          Return (JObj [("error", JStr "Failed to normalize");
                        ("raw", JStr rawData)])
      end
  end.

(** ** [components/PlayerInspector.tsx] *)

(** The argument of [onActionTriggered], evaluated for a truthy [result];
    [result.recommendedAction.primaryReason] throws when the recommended
    action is missing or [null], and so does
    [result.reasoningChain.priorityAlignment] when it is needed and the
    chain is. *)
Definition triggered_action (now : Z) (player : Player) (result : JsValue)
  : Completion Action :=
  recommended <- get_prop result "recommendedAction" ;;
  conf <- get_prop result "confidence" ;;
  primaryReason <- get_prop recommended "primaryReason" ;;
  why <- (if truthy primaryReason then Return primaryReason
          else chain <- get_prop result "reasoningChain" ;;
               get_prop chain "priorityAlignment") ;;
  Return {| spread := own_props recommended;
            playerId := id player;
            playerName := name player;
            timestamp := now;
            confidence := conf;
            reasoning := why;
            status := "EXECUTED" |}.

(** The body of the [try] block once the awaited result is there. *)
Definition on_result (now : Z) (player : Player) (result : JsValue)
    (st : State) : State * Completion unit :=
  if truthy result then
    let st1 :=
      setCurrentAnalysis
        (Some {| result_props := own_props result;
                 analysis_player := player |}) st in
    match get_prop result "actionNeeded" with
    | Throw err => (st1, Throw err)
    | Return needed =>
        if truthy needed then
          match triggered_action now player result with
          | Throw err => (st1, Throw err)
          | Return action => (handleActionTriggered action st1, Return tt)
          end
        else (st1, Return tt)
    end
  else (st, Return tt).

(** [handleRunAIAnalysis]: [now] is what the clock reads when the result
    is handled.  The [finally] clause runs on every path. *)
Definition handleRunAIAnalysis (svc : GeminiService) (now : Z)
    (player : Player) (st : State) : State * Completion unit :=
  let st0 := setCurrentAnalysis None
               (setAnalyzingPlayerId (Some (id player)) st) in
  let '(st1, c) :=
    match analyzePlayerData svc player {| dau := 12000; retention := 40 |}
            (constraints st) with
    | Throw err => (st0, Throw err)
    | Return result => on_result now player result st0
    end in
  (setAnalyzingPlayerId None st1, c).

End Gateway.

(** ** Runs of the console *)

(** What the operator can do to the cells above: press [Model Behavior] on
    a player (the service and the clock reading are the environment's part
    of that evaluation), pick a tab in the sidebar, close the analysis
    panel.  No control calls [setConstraints]. *)
Inductive UIEvent : Type :=
| RunAnalysis (svc : GeminiService) (now : Z) (player : Player)
| SelectTab (tab : string)
| CloseAnalysis.

Definition step (JSON_parse : string -> option JsValue) (ev : UIEvent)
    (st : State) : State :=
  match ev with
  | RunAnalysis svc now player =>
      fst (handleRunAIAnalysis JSON_parse svc now player st)
  | SelectTab tab => setActiveTab tab st
  | CloseAnalysis => setCurrentAnalysis None st
  end.

Fixpoint run (JSON_parse : string -> option JsValue) (evs : list UIEvent)
    (st : State) : State :=
  match evs with
  | [] => st
  | ev :: evs' => run JSON_parse evs' (step JSON_parse ev st)
  end.

(** The clock readings of the evaluations of a run, in order. *)
Fixpoint readings (evs : list UIEvent) : list Z :=
  match evs with
  | [] => []
  | RunAnalysis _ now _ :: evs' => now :: readings evs'
  | _ :: evs' => readings evs'
  end.

(** ** What the ledger is measured by *)

(** The action that one evaluation hands to [onActionTriggered], if any:
    the guards of [handleRunAIAnalysis] and nothing else. *)
Definition recommendation (JSON_parse : string -> option JsValue)
    (svc : GeminiService) (now : Z) (player : Player) (cs : SafetyConstraints)
  : option Action :=
  match analyzePlayerData JSON_parse svc player
          {| dau := 12000; retention := 40 |} cs with
  | Return result =>
      if truthy result then
        match get_prop result "actionNeeded" with
        | Return needed =>
            if truthy needed then
              match triggered_action now player result with
              | Return action => Some action
              | Throw _ => None
              end
            else None
        | Throw _ => None
        end
      else None
  | Throw _ => None
  end.

Definition executed (a : Action) : bool := String.eqb (status a) "EXECUTED".

Definition WEEK_MS : Z := 7 * 24 * 60 * 60 * 1000.

(** Strictly less than seven days before [now], and not after it. *)
Definition in_trailing_week (now : Z) (a : Action) : bool :=
  (now - WEEK_MS <? timestamp a) && (timestamp a <=? now).

(** The EXECUTED entries of a player in the seven days up to [now]. *)
Definition executed_in_week (pid : string) (now : Z) (ledger : list Action)
  : nat :=
  List.length
    (filter (fun a => String.eqb (playerId a) pid && executed a
                      && in_trailing_week now a) ledger).

Definition blacklisted (cs : SafetyConstraints) (s : PlayerSegment) : bool :=
  existsb (PlayerSegment_eqb s) (blacklistedSegments cs).

(** Every entry is at least as recent as all the entries after it. *)
Definition most_recent_first (ledger : list Action) : Prop :=
  StronglySorted (fun a b => timestamp b <= timestamp a) ledger.

(** The actions that the evaluations of a run hand to [onActionTriggered],
    in the order of the run, under constraints [cs]. *)
Fixpoint recommended (JSON_parse : string -> option JsValue)
    (cs : SafetyConstraints) (evs : list UIEvent) : list Action :=
  match evs with
  | [] => []
  | RunAnalysis svc now player :: evs' =>
      match recommendation JSON_parse svc now player cs with
      | Some a => a :: recommended JSON_parse cs evs'
      | None => recommended JSON_parse cs evs'
      end
  | _ :: evs' => recommended JSON_parse cs evs'
  end.

(** ** Concrete inputs *)

Definition field (k v : string) : string := jstr k ++ ":" ++ v.
Definition object (fields : list string) : string :=
  "{" ++ String.concat "," fields ++ "}".

(** A service whose model answers every request with the same text. *)
Definition answering (text : string) : GeminiService :=
  {| generateContent := fun _ => Response (Some text) |}.

Definition chain_text : string :=
  object [field "riskOpportunity" (jstr "lapsing");
          field "priorityAlignment" (jstr "retention first");
          field "designerVoiceLogic" (jstr "plain words");
          field "safetyAudit" (jstr "ok");
          field "expectedLongTermImpact" (jstr "returns")].

(** The model recommends a gift worth [usd] dollars. *)
Definition gift_text (usd : string) : string :=
  object [field "reasoningChain" chain_text;
          field "actionNeeded" "true";
          field "recommendedAction"
            (object [field "type" (jstr "RESOURCE_GIFT");
                     field "description" (jstr "Welcome back gift");
                     field "primaryReason" (jstr "Lapsing player");
                     field "estimatedValueUSD" usd]);
          field "confidence" "90"].

(** The model recommends silence. *)
Definition silence_text : string :=
  object [field "reasoningChain" chain_text;
          field "actionNeeded" "false";
          field "recommendedAction" (object [field "type" (jstr "NONE")]);
          field "staySilentReasoning" (jstr "Player is engaged");
          field "confidence" "75"].

(** A player of the one segment that the default policy excludes. *)
Definition churned_player : Player :=
  {| id := "p_0007"; name := "Robin C."; joinDate := "2023-02-01";
     lastActive := "2023-09-30T18:00:00Z"; level := 9;
     totalSpent := 0; sessionCount := 21; retentionScore := 3;
     segment := CHURNED; intent := "Lapsed collector";
     recentEvents := [] |}.

(** 2024-05-20T14:30:00Z *)
Definition t0 : Z := 1716215400000.


(** The entry that a recommended gift leaves in the ledger. *)
Definition gift_entry (usd : Q) (player : Player) (now : Z) : Action :=
  {| spread := [("type", JStr "RESOURCE_GIFT");
                ("description", JStr "Welcome back gift");
                ("primaryReason", JStr "Lapsing player");
                ("estimatedValueUSD", JNum usd)];
     playerId := id player;
     playerName := name player;
     timestamp := now;
     confidence := JNum 90;
     reasoning := JStr "Lapsing player";
     status := "EXECUTED" |}.

Definition negative_caps : SafetyConstraints :=
  {| maxActionsPerPlayerPerWeek := -1;
     maxRewardValueUSD := -25;
     blacklistedSegments := [];
     complianceEnabled := true;
     budgetCapDaily := -1000 |}.

(** Three evaluations, a gift for Alex, silence for Sam and a gift for
    Jordan, with a tab change and a closed panel in between. *)
Definition busy_afternoon : list UIEvent :=
  [RunAnalysis (answering (gift_text "10")) t0 alex;
   SelectTab "players";
   RunAnalysis (answering silence_text) (t0 + 1000) sam;
   RunAnalysis (answering (gift_text "5")) (t0 + 60000) jordan;
   CloseAnalysis].


(** The raw text of the Backend sample of [RAW_DATA_SAMPLES]. *)
Definition backend_sample : string :=
  "UID:5543|SESS:44|LVL:28|BAL:450|TS:2024-05-20T11:00:00".

(** ** The rest of the console *)

(** *** [components/PlayerInspector.tsx]: the thinking animation *)

(** The updater that the interval of the effect applies every 800 ms while
    an analysis is in flight; the effect sets the step to 0 first. *)
Definition next_thought (prev : Z) : Z := if prev <? 3 then prev + 1 else prev.

Fixpoint ticks (n : nat) (thoughtStep : Z) : Z :=
  match n with
  | O => thoughtStep
  | S n' => ticks n' (next_thought thoughtStep)
  end.

(** The four stages above the progress bar, by label. *)
Definition steps : list string :=
  ["Retention Check"; "Priority Filter"; "Designer Voice"; "Safety Rails"].

(** [idx <= thoughtStep]: the stage at [idx] is drawn in its colour. *)
Definition step_lit (thoughtStep : Z) (idx : nat) : bool :=
  Z.of_nat idx <=? thoughtStep.

(** The width of the progress bar, in percent. *)
Definition progress_width (thoughtStep : Z) : Z := (thoughtStep + 1) * 25.

(** *** [components/PlayerInspector.tsx]: the analysis panel *)

(** The four texts of the reasoning grid, read as
    [currentAnalysis.reasoningChain.riskOpportunity] and so on, in the
    order the panel reads them.  (What React then does with a value that
    is not a text is not part of this.) *)
Definition panel_reasoning (an : Analysis) : Completion (list JsValue) :=
  let chain := props_get (result_props an) "reasoningChain" in
  risk <- get_prop chain "riskOpportunity" ;;
  priority <- get_prop chain "priorityAlignment" ;;
  voice <- get_prop chain "designerVoiceLogic" ;;
  impact <- get_prop chain "expectedLongTermImpact" ;;
  Return [risk; priority; voice; impact].

(** *** [components/ActionHistory.tsx] *)

(** [s.replace('_', ' ')]: a string pattern replaces its first occurrence
    only. *)
Fixpoint replace_first_underscore (s : string) : string :=
  match s with
  | EmptyString => EmptyString
  | String c s' =>
      if Ascii.eqb c "_"%char then String " "%char s'
      else String c (replace_first_underscore s')
  end.

(** [action.type.replace('_', ' ')], the badge beside the title of a card.
    Only a string has a [replace] to call. *)
Definition type_badge (a : Action) : Completion string :=
  match spread_prop a "type" with
  | JStr s => Return (replace_first_underscore s)
  | _ => Throw "TypeError"
  end.

(** The badges of the cards, in the order [actions.map] builds the cards:
    the first card that throws ends the rendering. *)
Fixpoint type_badges (actions : list Action) : Completion (list string) :=
  match actions with
  | [] => Return []
  | a :: actions' =>
      b <- type_badge a ;;
      bs <- type_badges actions' ;;
      Return (b :: bs)
  end.

(** [action.primaryReason || action.reasoning], the text under
    Primary Reason. *)
Definition shown_reason (a : Action) : JsValue :=
  if truthy (spread_prop a "primaryReason")
  then spread_prop a "primaryReason"
  else reasoning a.


(** *** [components/Sidebar.tsx] and [App.renderContent] *)

(** The [id] and [label] of the menu items. *)
Definition menuItems : list (string * string) :=
  [("dashboard", "Operator Hub");
   ("players", "Player Cohorts");
   ("actions", "Action History");
   ("sandbox", "Data Sandbox");
   ("constraints", "Safety Rails")].

(** The labels of the items drawn as active: [activeTab === item.id]. *)
Definition active_items (st : State) : list string :=
  map snd (filter (fun item => String.eqb (activeTab st) (fst item)) menuItems).

(** What [renderContent] returns, with the props each component gets; the
    Safety Rails page is drawn by [App] itself from the constraints. *)
Inductive View : Type :=
| DashboardView
| PlayerInspectorView (cs : SafetyConstraints)
| ActionHistoryView (actions : list Action)
| DataSandboxView
| SafetyRailsView (cs : SafetyConstraints).

Definition renderContent (st : State) : View :=
  if String.eqb (activeTab st) "dashboard" then DashboardView
  else if String.eqb (activeTab st) "players"
    then PlayerInspectorView (constraints st)
  else if String.eqb (activeTab st) "actions"
    then ActionHistoryView (executedActions st)
  else if String.eqb (activeTab st) "sandbox" then DataSandboxView
  else if String.eqb (activeTab st) "constraints"
    then SafetyRailsView (constraints st)
  else DashboardView.

(** A sidebar click selects the tab of a menu item. *)
Definition from_menu (ev : UIEvent) : Prop :=
  match ev with
  | SelectTab tab => In tab (map fst menuItems)
  | _ => True
  end.

(** *** [components/DataSandbox.tsx] *)

(** The cells that [handleNormalize] writes; [normalizedData] is an object
    keyed by sample index. *)
Record SandboxState : Type := {
  normalizingIdx : option nat;
  normalizedData : Props
}.

(** [normalizedData[idx]] *)
Definition normalized_at (sb : SandboxState) (idx : nat) : JsValue :=
  props_get (normalizedData sb) (index_key idx).

(** [normalizedData[idx] ? ... : ...]: the right pane shows the output
    rather than the waiting notice. *)
Definition shows_output (sb : SandboxState) (idx : nat) : bool :=
  truthy (normalized_at sb idx).

Definition setNormalizingIdx (i : option nat) (sb : SandboxState)
  : SandboxState :=
  {| normalizingIdx := i; normalizedData := normalizedData sb |}.

Definition setNormalizedData (f : Props -> Props) (sb : SandboxState)
  : SandboxState :=
  {| normalizingIdx := normalizingIdx sb;
     normalizedData := f (normalizedData sb) |}.

(** [handleNormalize]: the updater is [prev => ({ ...prev, [idx]: result })],
    and the [finally] clause runs on both paths. *)
Definition handleNormalize (JSON_parse : string -> option JsValue)
    (svc : GeminiService) (idx : nat) (raw : string) (sb : SandboxState)
  : SandboxState * Completion unit :=
  let sb0 := setNormalizingIdx (Some idx) sb in
  let '(sb1, c) :=
    match normalizeRawData JSON_parse svc raw with
    | Throw err => (sb0, Throw err)
    | Return result =>
        (setNormalizedData
           (fun prev => props_set prev (index_key idx) result) sb0,
         Return tt)
    end in
  (setNormalizingIdx None sb1, c).

Definition empty_sandbox : SandboxState :=
  {| normalizingIdx := None; normalizedData := [] |}.

(** *** More concrete inputs *)

(** A service whose call is rejected. *)
Definition unreachable_service : GeminiService :=
  {| generateContent := fun _ => Rejected "503 Service Unavailable" |}.

(** A service whose response carries no text. *)
Definition mute_service : GeminiService :=
  {| generateContent := fun _ => Response None |}.

(** The model wants an action but names none. *)
Definition needy_text : string := object [field "actionNeeded" "true"].

(** The model recommends a push without saying of which type. *)
Definition untyped_text : string :=
  object [field "reasoningChain" chain_text;
          field "actionNeeded" "true";
          field "recommendedAction"
            (object [field "description" (jstr "Say hello");
                     field "primaryReason" (jstr "Lapsing player")]);
          field "confidence" "60"].

Definition untyped_entry (player : Player) (now : Z) : Action :=
  {| spread := [("description", JStr "Say hello");
                ("primaryReason", JStr "Lapsing player")];
     playerId := id player;
     playerName := name player;
     timestamp := now;
     confidence := JNum 60;
     reasoning := JStr "Lapsing player";
     status := "EXECUTED" |}.

(** The model recommends an offer and poses as another player, already
    blocked. *)
Definition forged_text : string :=
  object [field "reasoningChain" chain_text;
          field "actionNeeded" "true";
          field "recommendedAction"
            (object [field "type" (jstr "IN_GAME_OFFER");
                     field "primaryReason" (jstr "");
                     field "playerId" (jstr "p_9999");
                     field "status" (jstr "BLOCKED")]);
          field "confidence" "40"].

Definition forged_entry (player : Player) (now : Z) : Action :=
  {| spread := [("type", JStr "IN_GAME_OFFER");
                ("primaryReason", JStr "");
                ("playerId", JStr "p_9999");
                ("status", JStr "BLOCKED")];
     playerId := id player;
     playerName := name player;
     timestamp := now;
     confidence := JNum 40;
     reasoning := JStr "retention first";
     status := "EXECUTED" |}.

(** The model answers with the JSON text of [null]. *)
Definition null_text : string := "null".


(** The model recommends a push, with the keys of the response schema and
    no others. *)
Definition push_text : string :=
  object [field "reasoningChain" chain_text;
          field "actionNeeded" "true";
          field "recommendedAction"
            (object [field "type" (jstr "PUSH_NOTIFICATION");
                     field "description" (jstr "Guild news");
                     field "playerFacingCopy" (jstr "Your guild misses you.");
                     field "primaryReason" (jstr "Lapsing player");
                     field "expectedOutcome" (jstr "A session this week")]);
          field "confidence" "80"].

Definition push_entry (player : Player) (now : Z) : Action :=
  {| spread := [("type", JStr "PUSH_NOTIFICATION");
                ("description", JStr "Guild news");
                ("playerFacingCopy", JStr "Your guild misses you.");
                ("primaryReason", JStr "Lapsing player");
                ("expectedOutcome", JStr "A session this week")];
     playerId := id player;
     playerName := name player;
     timestamp := now;
     confidence := JNum 80;
     reasoning := JStr "Lapsing player";
     status := "EXECUTED" |}.

(** Alex is evaluated, the wall clock is set back by a minute, Sam is
    evaluated. *)
Definition clock_steps_back : list UIEvent :=
  [RunAnalysis (answering push_text) (t0 + 60000) alex;
   RunAnalysis (answering push_text) t0 sam].

(** * Properties *)

(** ** One evaluation, and runs of them *)

Section Facts.

Variable JSON_parse : string -> option JsValue.

Lemma triggered_action_fields now player result a :
  triggered_action now player result = Return a ->
  status a = "EXECUTED" /\ playerId a = id player /\
  playerName a = name player /\ timestamp a = now.
Proof.
  unfold triggered_action, bind.
  destruct (get_prop result "recommendedAction") as [ra|]; [|discriminate].
  destruct (get_prop result "confidence") as [cf|]; [|discriminate].
  destruct (get_prop ra "primaryReason") as [pr|]; [|discriminate].
  destruct (truthy pr).
  - intros [= <-]; repeat split.
  - destruct (get_prop result "reasoningChain") as [ch|]; [|discriminate].
    destruct (get_prop ch "priorityAlignment"); [|discriminate].
    intros [= <-]; repeat split.
Qed.

Lemma recommendation_fields svc now player cs a :
  recommendation JSON_parse svc now player cs = Some a ->
  status a = "EXECUTED" /\ playerId a = id player /\
  playerName a = name player /\ timestamp a = now.
Proof.
  unfold recommendation.
  destruct (analyzePlayerData _ _ _ _ _) as [result|]; [|discriminate].
  destruct (truthy result); [|discriminate].
  destruct (get_prop result "actionNeeded") as [needed|]; [|discriminate].
  destruct (truthy needed); [|discriminate].
  destruct (triggered_action now player result) as [a'|] eqn:E; [|discriminate].
  intros [= <-]. exact (triggered_action_fields _ _ _ _ E).
Qed.

(** The ledger moves only when the evaluation recommends an action, and
    then by that action, put in front. *)
Lemma ledger_after svc now player st :
  executedActions (fst (handleRunAIAnalysis JSON_parse svc now player st)) =
    match recommendation JSON_parse svc now player (constraints st) with
    | Some a => a :: executedActions st
    | None => executedActions st
    end.
Proof.
  unfold handleRunAIAnalysis, recommendation, on_result.
  cbn [constraints setCurrentAnalysis setAnalyzingPlayerId].
  destruct (analyzePlayerData _ _ _ _ _) as [result|]; [|reflexivity].
  destruct (truthy result); [|reflexivity].
  destruct (get_prop result "actionNeeded") as [needed|]; [|reflexivity].
  destruct (truthy needed); [|reflexivity].
  destruct (triggered_action now player result); reflexivity.
Qed.

Lemma constraints_after svc now player st :
  constraints (fst (handleRunAIAnalysis JSON_parse svc now player st))
  = constraints st.
Proof.
  unfold handleRunAIAnalysis, on_result.
  destruct (analyzePlayerData _ _ _ _ _) as [result|]; [|reflexivity].
  destruct (truthy result); [|reflexivity].
  destruct (get_prop result "actionNeeded") as [needed|]; [|reflexivity].
  destruct (truthy needed); [|reflexivity].
  destruct (triggered_action now player result); reflexivity.
Qed.

Lemma constraints_step ev st :
  constraints (step JSON_parse ev st) = constraints st.
Proof. destruct ev; cbn [step]; [apply constraints_after | reflexivity ..]. Qed.


(** After a run the ledger is the recommendations of the run, the latest
    first, in front of the ledger the run started with. *)
Lemma ledger_run evs :
  forall st,
    executedActions (run JSON_parse evs st)
    = (rev (recommended JSON_parse (constraints st) evs)
       ++ executedActions st)%list.
Proof.
  induction evs as [|ev evs IH]; intros st; [reflexivity|].
  cbn [run]. rewrite IH, constraints_step.
  destruct ev as [svc now player | tab | ]; cbn [step recommended];
    [|reflexivity ..].
  rewrite ledger_after.
  destruct (recommendation JSON_parse svc now player (constraints st));
    [|reflexivity].
  cbn [rev]. rewrite <- app_assoc. reflexivity.
Qed.

Lemma ledger_run_sorted evs :
  forall st,
    StronglySorted Z.le (readings evs) ->
    most_recent_first (executedActions st) ->
    (forall a t, In a (executedActions st) -> In t (readings evs) ->
                 timestamp a <= t) ->
    most_recent_first (executedActions (run JSON_parse evs st)).
Proof.
  induction evs as [|ev evs IH]; intros st Hclock Hsorted Hpast; cbn [run].
  - exact Hsorted.
  - destruct ev as [svc now player | tab | ]; cbn [readings step] in *;
      [| apply IH; assumption ..].
    inversion Hclock as [|? ? Hrest Hnow]; subst.
    rewrite Forall_forall in Hnow.
    apply IH; [assumption | |]; rewrite ledger_after;
      destruct (recommendation JSON_parse svc now player (constraints st))
        as [a|] eqn:Hrec.
    + destruct (recommendation_fields _ _ _ _ _ Hrec) as (_ & _ & _ & Ht).
      constructor; [assumption|]. apply Forall_forall. intros b Hb.
      rewrite Ht. apply Hpast; [assumption | left; reflexivity].
    + assumption.
    + destruct (recommendation_fields _ _ _ _ _ Hrec) as (_ & _ & _ & Ht).
      intros b t [<-|Hb] Hin.
      * rewrite Ht. apply Hnow. assumption.
      * apply Hpast; [assumption | right; assumption].
    + intros b t Hb Hin. apply Hpast; [assumption | right; assumption].
Qed.

End Facts.

Lemma recommended_origin JSON_parse cs evs a :
  In a (recommended JSON_parse cs evs) ->
  exists svc now player,
    In (RunAnalysis svc now player) evs
    /\ recommendation JSON_parse svc now player cs = Some a.
Proof.
  induction evs as [|ev evs IH]; cbn [recommended]; [intros []|].
  assert (Hlater : In a (recommended JSON_parse cs evs) ->
                   exists svc now player,
                     In (RunAnalysis svc now player) (ev :: evs)
                     /\ recommendation JSON_parse svc now player cs = Some a).
  { intros H. destruct (IH H) as (svc & now & player & Hin & Hrec).
    exists svc, now, player. split; [right; exact Hin | exact Hrec]. }
  destruct ev as [svc now player | tab | ]; [|exact Hlater ..].
  destruct (recommendation JSON_parse svc now player cs) as [a'|] eqn:Hrec;
    [|exact Hlater].
  intros [<- | H]; [|exact (Hlater H)].
  exists svc, now, player. split; [left; reflexivity | exact Hrec].
Qed.

Lemma recommended_length JSON_parse cs evs :
  (List.length (recommended JSON_parse cs evs) <= List.length (readings evs))%nat.
Proof.
  induction evs as [|ev evs IH]; [cbn; lia|].
  destruct ev as [svc now player | tab | ]; cbn [recommended readings];
    [|exact IH ..].
  destruct (recommendation JSON_parse svc now player cs); cbn [List.length]; lia.
Qed.

Lemma executed_in_week_cons pid now a ledger :
  executed_in_week pid now (a :: ledger) =
    ((if String.eqb (playerId a) pid && executed a && in_trailing_week now a
      then 1 else 0) + executed_in_week pid now ledger)%nat.
Proof.
  unfold executed_in_week. cbn [filter].
  destruct (String.eqb (playerId a) pid && executed a && in_trailing_week now a);
    reflexivity.
Qed.

Lemma in_trailing_week_now now a :
  timestamp a = now -> in_trailing_week now a = true.
Proof.
  intros <-. unfold in_trailing_week, WEEK_MS.
  apply andb_true_intro. split; [apply Z.ltb_lt | apply Z.leb_le]; lia.
Qed.

(** The players that the console lists are outside the segments that the
    default policy excludes. *)
Example mock_players_not_blacklisted :
  forallb (fun p => negb (blacklisted DEFAULT_SAFETY_CONSTRAINTS (segment p)))
    MOCK_PLAYERS = true.
Proof. reflexivity. Qed.

(** The ledger of the busy afternoon: the later gift first. *)
Example busy_afternoon_ledger :
  executedActions (run Json.parse busy_afternoon initial_state)
  = [gift_entry 5 jordan (t0 + 60000); gift_entry 10 alex t0].
Proof. vm_compute. reflexivity. Qed.

(** A recommendation repeated [n] times for one player at one instant is
    recorded [n] times in that player's week. *)
Corollary repeated_recommendation_all_recorded
    (JSON_parse : string -> option JsValue) (svc : GeminiService) (now : Z)
    (player : Player) (a : Action) (n : nat) (st : State) :
  recommendation JSON_parse svc now player (constraints st) = Some a ->
  executed_in_week (id player) now
    (executedActions
       (run JSON_parse (repeat (RunAnalysis svc now player) n) st))
  = (n + executed_in_week (id player) now (executedActions st))%nat.
Proof.
  revert st. induction n as [|n IH]; intros st Hrec; [reflexivity|].
  cbn [repeat run step].
  rewrite IH by (rewrite constraints_after; exact Hrec).
  rewrite ledger_after, Hrec, executed_in_week_cons.
  destruct (recommendation_fields _ _ _ _ _ _ Hrec) as (Hs & Hp & _ & Ht).
  rewrite (in_trailing_week_now _ _ Ht), Hp, String.eqb_refl.
  unfold executed. rewrite Hs. cbn. lia.
Qed.

(** ** Segments *)



(** ** Frequency *)



(** ** One entry per recommendation *)




(** ** The ledger as a record *)

(** C8, as the code has it: the ledger is in the order of recording, the
    latest recording first.  After any run it is the actions recommended
    during the run, the latest first, in front of the ledger the run
    started with, whose entries are all there, unchanged and in their
    order.  The order is also the order of the timestamps, the most recent
    first, when the clock readings of the evaluations do not go backwards
    (and the entries already there are sorted and not later than those
    readings). *)
Theorem ledger_keeps_entries_in_recording_order
    (JSON_parse : string -> option JsValue) (evs : list UIEvent) (st : State) :
  executedActions (run JSON_parse evs st)
    = (rev (recommended JSON_parse (constraints st) evs)
       ++ executedActions st)%list
  /\ (StronglySorted Z.le (readings evs) ->
      most_recent_first (executedActions st) ->
      (forall a t, In a (executedActions st) -> In t (readings evs) ->
                   timestamp a <= t) ->
      most_recent_first (executedActions (run JSON_parse evs st))).
Proof.
  split; [apply ledger_run|].
  intros Hclock Hsorted Hpast. apply ledger_run_sorted; assumption.
Qed.

Lemma ledger_recording_order_witness :
  StronglySorted Z.le (readings busy_afternoon)
  /\ executedActions (run Json.parse busy_afternoon initial_state)
     = (rev (recommended Json.parse (constraints initial_state) busy_afternoon)
        ++ executedActions initial_state)%list
  /\ most_recent_first
       (executedActions (run Json.parse busy_afternoon initial_state)).
Proof.
  assert (Hclock : StronglySorted Z.le (readings busy_afternoon)).
  { cbn [busy_afternoon readings]. unfold t0.
    repeat (constructor; try lia). }
  destruct (ledger_keeps_entries_in_recording_order
              Json.parse busy_afternoon initial_state) as [Hledger Horder].
  split; [exact Hclock|]. split; [exact Hledger|].
  apply Horder.
  - exact Hclock.
  - constructor.
  - intros a t [].
Defined.

(** C8 fails as stated: when the wall clock is set back between two
    evaluations, the later recording is in front with the earlier
    timestamp, and the ledger is not ordered by timestamp. *)
Lemma clock_set_back_breaks_timestamp_order :
  executedActions (run Json.parse clock_steps_back initial_state)
    = [push_entry sam t0; push_entry alex (t0 + 60000)]
  /\ ~ most_recent_first
        (executedActions (run Json.parse clock_steps_back initial_state)).
Proof.
  assert (H : executedActions (run Json.parse clock_steps_back initial_state)
              = [push_entry sam t0; push_entry alex (t0 + 60000)]).
  { vm_compute. reflexivity. }
  split; [exact H|]. rewrite H. unfold most_recent_first. intros Hsorted.
  inversion Hsorted as [|? ? _ Hall]; subst.
  inversion Hall as [|? ? Hle _]; subst.
  vm_compute in Hle. apply Hle. reflexivity.
Qed.

(** ** Answers that are not JSON *)

(** C9, as the code has it: an empty text is read as the text of an empty
    object, so the fallback to [null] is for a text that is not empty.
    When the answer to the analysis request has a non-empty text that
    [JSON.parse] rejects, [analyzePlayerData] returns [null] without
    throwing, and the evaluation triggers no action, appends nothing to
    the ledger, and shows no analysis: tab, ledger and constraints are as
    before, and both inspector cells are [null]. *)
Theorem unparseable_analysis_yields_null
    (JSON_parse : string -> option JsValue) (svc : GeminiService) (now : Z)
    (player : Player) (st : State) (text : string) :
  generateContent svc
    {| model := "gemini-3-pro-preview";
       contents := AnalysisPrompt player {| dau := 12000; retention := 40 |}
                     (constraints st) |} = Response (Some text) ->
  text <> "" ->
  JSON_parse text = None ->
  analyzePlayerData JSON_parse svc player {| dau := 12000; retention := 40 |}
    (constraints st) = Return JNull
  /\ handleRunAIAnalysis JSON_parse svc now player st
     = ({| activeTab := activeTab st;
           executedActions := executedActions st;
           constraints := constraints st;
           analyzingPlayerId := None;
           currentAnalysis := None |}, Return tt).
Proof.
  intros Hresp Hne Hparse.
  assert (Hnull : analyzePlayerData JSON_parse svc player
                    {| dau := 12000; retention := 40 |} (constraints st)
                  = Return JNull).
  { unfold analyzePlayerData. rewrite Hresp. cbn [text_or].
    apply String.eqb_neq in Hne. rewrite Hne, Hparse. reflexivity. }
  split; [exact Hnull|].
  unfold handleRunAIAnalysis.
  cbn [constraints setCurrentAnalysis setAnalyzingPlayerId].
  rewrite Hnull. reflexivity.
Qed.

Lemma unparseable_analysis_witness :
  Json.parse "Sorry, no." = None
  /\ analyzePlayerData Json.parse (answering "Sorry, no.") alex
       {| dau := 12000; retention := 40 |} (constraints initial_state)
     = Return JNull
  /\ handleRunAIAnalysis Json.parse (answering "Sorry, no.") t0 alex
       initial_state
     = ({| activeTab := activeTab initial_state;
           executedActions := executedActions initial_state;
           constraints := constraints initial_state;
           analyzingPlayerId := None;
           currentAnalysis := None |}, Return tt).
Proof.
  split; [vm_compute; reflexivity|].
  apply (unparseable_analysis_yields_null
           Json.parse (answering "Sorry, no.") t0 alex initial_state
           "Sorry, no.").
  - reflexivity.
  - discriminate.
  - vm_compute. reflexivity.
Defined.

(** C9 fails as stated: the empty text is not JSON, yet for an answer with
    an empty text [analyzePlayerData] returns an empty object, not [null],
    and the evaluation shows it as the analysis of the player. *)
Lemma empty_text_analysis_not_null :
  Json.parse "" = None
  /\ analyzePlayerData Json.parse (answering "") alex
       {| dau := 12000; retention := 40 |} (constraints initial_state)
     = Return (JObj [])
  /\ currentAnalysis
       (fst (handleRunAIAnalysis Json.parse (answering "") t0 alex
               initial_state))
     = Some {| result_props := []; analysis_player := alex |}.
Proof. repeat split; vm_compute; reflexivity. Qed.

(** C10, as the code has it: an empty text is read as the text of an empty
    object, so the fallback is for a text that is not empty.  For every
    input string, when the answer to the normalisation request has a
    non-empty text that [JSON.parse] rejects, [normalizeRawData] returns,
    without throwing, the object with [error] set to "Failed to normalize"
    and [raw] set to the input string as it was given. *)
Theorem unparseable_normalization_returns_raw
    (JSON_parse : string -> option JsValue) (svc : GeminiService)
    (rawData text : string) :
  generateContent svc
    {| model := "gemini-3-flash-preview";
       contents := NormalizePrompt rawData |} = Response (Some text) ->
  text <> "" ->
  JSON_parse text = None ->
  normalizeRawData JSON_parse svc rawData
  = Return (JObj [("error", JStr "Failed to normalize");
                  ("raw", JStr rawData)]).
Proof.
  intros Hresp Hne Hparse. unfold normalizeRawData.
  rewrite Hresp. cbn [text_or].
  apply String.eqb_neq in Hne. rewrite Hne, Hparse. reflexivity.
Qed.

Lemma unparseable_normalization_witness :
  Json.parse "I cannot parse this log." = None
  /\ normalizeRawData Json.parse (answering "I cannot parse this log.")
       backend_sample
     = Return (JObj [("error", JStr "Failed to normalize");
                     ("raw", JStr backend_sample)]).
Proof.
  split; [vm_compute; reflexivity|].
  apply (unparseable_normalization_returns_raw
           Json.parse (answering "I cannot parse this log.") backend_sample
           "I cannot parse this log.").
  - reflexivity.
  - discriminate.
  - vm_compute. reflexivity.
Defined.

(** C10 fails as stated: the empty text is not JSON, yet for an answer with
    an empty text [normalizeRawData] returns an empty object, which has
    neither [error] nor [raw]. *)
Lemma empty_text_normalization_drops_raw :
  Json.parse "" = None
  /\ normalizeRawData Json.parse (answering "") backend_sample
     = Return (JObj [])
  /\ normalizeRawData Json.parse (answering "") backend_sample
     <> Return (JObj [("error", JStr "Failed to normalize");
                      ("raw", JStr backend_sample)]).
Proof.
  split; [vm_compute; reflexivity|].
  split; [vm_compute; reflexivity|].
  vm_compute. discriminate.
Qed.

(** * Further properties of the console *)

(** ** Objects and their keys *)

Lemma props_get_set_same ps k v : props_get (props_set ps k v) k = v.
Proof.
  induction ps as [|[k' v'] ps IH]; cbn [props_set props_get].
  - rewrite String.eqb_refl. reflexivity.
  - destruct (String.eqb k' k) eqn:E; cbn [props_get]; rewrite E;
      [reflexivity | exact IH].
Qed.

Lemma props_get_set_other ps k k' v :
  k <> k' -> props_get (props_set ps k v) k' = props_get ps k'.
Proof.
  intros Hne. induction ps as [|[k0 v0] ps IH]; cbn [props_set props_get].
  - apply String.eqb_neq in Hne. rewrite Hne. reflexivity.
  - destruct (String.eqb k0 k) eqn:E; cbn [props_get].
    + apply String.eqb_eq in E. subst k0.
      apply String.eqb_neq in Hne. rewrite Hne. reflexivity.
    + rewrite IH. reflexivity.
Qed.

Lemma index_key_inj n m : index_key n = index_key m -> n = m.
Proof.
  unfold index_key. intros H.
  apply (f_equal NilEmpty.uint_of_string) in H.
  rewrite !NilEmpty.usu in H. injection H as H.
  apply (f_equal Nat.of_uint) in H.
  rewrite !DecimalNat.Unsigned.of_to in H. exact H.
Qed.

(** A name that is not a decimal numeral is not an index. *)
Lemma props_get_indexed k vs :
  NilEmpty.uint_of_string k = None ->
  forall n, props_get (indexed n vs) k = JUndefined.
Proof.
  intros Hk. induction vs as [|v vs IH]; intros n; cbn [indexed props_get];
    [reflexivity|].
  destruct (String.eqb (index_key n) k) eqn:E; [|apply IH].
  apply String.eqb_eq in E. subst k. unfold index_key in Hk.
  rewrite NilEmpty.usu in Hk. discriminate.
Qed.

(** Reading such a name from a value and from its spread copy agree. *)
Lemma own_props_get v k x :
  NilEmpty.uint_of_string k = None ->
  get_prop v k = Return x ->
  props_get (own_props v) k = x.
Proof.
  intros Hk. destruct v; cbn [get_prop own_props props_get];
    try discriminate; intros [= <-]; try reflexivity;
    apply props_get_indexed; exact Hk.
Qed.

(** ** Failures of an evaluation *)

(** X1: whatever the model call does, reject, answer nonsense or answer
    well, and also when building the action throws, the evaluation ends
    with [analyzingPlayerId] back to [null]. *)
Theorem analyzing_flag_always_cleared
    (JSON_parse : string -> option JsValue) (svc : GeminiService) (now : Z)
    (player : Player) (st : State) :
  analyzingPlayerId (fst (handleRunAIAnalysis JSON_parse svc now player st))
  = None.
Proof.
  unfold handleRunAIAnalysis.
  destruct (analyzePlayerData _ _ _ _ _) as [result|]; [|reflexivity].
  destruct (on_result now player result _); reflexivity.
Qed.

(** X2: a rejected model call is not caught: the evaluation throws the
    same error, and it has recorded nothing, left the tab alone and
    cleared the analysis panel. *)
Theorem rejected_call_is_rethrown
    (JSON_parse : string -> option JsValue) (svc : GeminiService) (now : Z)
    (player : Player) (st : State) (err : string) :
  generateContent svc
    {| model := "gemini-3-pro-preview";
       contents := AnalysisPrompt player {| dau := 12000; retention := 40 |}
                     (constraints st) |} = Rejected err ->
  handleRunAIAnalysis JSON_parse svc now player st
  = ({| activeTab := activeTab st;
        executedActions := executedActions st;
        constraints := constraints st;
        analyzingPlayerId := None;
        currentAnalysis := None |}, Throw err).
Proof.
  intros H. unfold handleRunAIAnalysis, analyzePlayerData.
  cbn [constraints setCurrentAnalysis setAnalyzingPlayerId].
  rewrite H. reflexivity.
Qed.

Lemma rejected_call_witness :
  handleRunAIAnalysis Json.parse unreachable_service t0 alex initial_state
  = ({| activeTab := activeTab initial_state;
        executedActions := executedActions initial_state;
        constraints := constraints initial_state;
        analyzingPlayerId := None;
        currentAnalysis := None |}, Throw "503 Service Unavailable").
Proof.
  apply (rejected_call_is_rethrown Json.parse unreachable_service t0 alex
           initial_state "503 Service Unavailable").
  reflexivity.
Defined.

(** X3: when the result asks for an action but has no
    [recommendedAction] (the key is missing or [null]), the evaluation
    throws a TypeError after the analysis was put on display: nothing is
    recorded and the tab stays. *)
Theorem missing_recommended_action_throws
    (JSON_parse : string -> option JsValue) (svc : GeminiService) (now : Z)
    (player : Player) (st : State) (result needed : JsValue) :
  analyzePlayerData JSON_parse svc player {| dau := 12000; retention := 40 |}
    (constraints st) = Return result ->
  truthy result = true ->
  get_prop result "actionNeeded" = Return needed ->
  truthy needed = true ->
  (get_prop result "recommendedAction" = Return JUndefined
   \/ get_prop result "recommendedAction" = Return JNull) ->
  handleRunAIAnalysis JSON_parse svc now player st
  = ({| activeTab := activeTab st;
        executedActions := executedActions st;
        constraints := constraints st;
        analyzingPlayerId := None;
        currentAnalysis :=
          Some {| result_props := own_props result;
                  analysis_player := player |} |}, Throw "TypeError").
Proof.
  intros Hres Ht Hn Hnt Hra. unfold handleRunAIAnalysis.
  cbn [constraints setCurrentAnalysis setAnalyzingPlayerId].
  rewrite Hres. unfold on_result. rewrite Ht, Hn, Hnt.
  unfold triggered_action, bind.
  assert (Hc : exists cf, get_prop result "confidence" = Return cf).
  { destruct result; try discriminate; cbn [get_prop]; eexists; reflexivity. }
  destruct Hc as [cf Hcf]. rewrite Hcf.
  destruct Hra as [-> | ->]; reflexivity.
Qed.

Lemma missing_recommended_action_witness :
  handleRunAIAnalysis Json.parse (answering needy_text) t0 alex initial_state
  = ({| activeTab := activeTab initial_state;
        executedActions := executedActions initial_state;
        constraints := constraints initial_state;
        analyzingPlayerId := None;
        currentAnalysis :=
          Some {| result_props := [("actionNeeded", JBool true)];
                  analysis_player := alex |} |}, Throw "TypeError").
Proof.
  apply (missing_recommended_action_throws
           Json.parse (answering needy_text) t0 alex initial_state
           (JObj [("actionNeeded", JBool true)]) (JBool true)).
  - vm_compute. reflexivity.
  - reflexivity.
  - reflexivity.
  - reflexivity.
  - left. reflexivity.
Defined.

(** ** Where the entries of the ledger come from *)

(** X4: every entry of the ledger of a console that started empty was put
    there by an evaluation of the run: it says EXECUTED, it names the
    player that was evaluated, by id and by name, and its timestamp is the
    clock reading of that evaluation.  Nothing the model writes into
    [recommendedAction] changes these fields. *)
Theorem ledger_entries_come_from_evaluations
    (JSON_parse : string -> option JsValue) (evs : list UIEvent) (a : Action) :
  In a (executedActions (run JSON_parse evs initial_state)) ->
  status a = "EXECUTED"
  /\ exists svc now player,
       In (RunAnalysis svc now player) evs
       /\ playerId a = id player
       /\ playerName a = name player
       /\ timestamp a = now.
Proof.
  rewrite ledger_run. cbn [executedActions initial_state].
  rewrite app_nil_r, <- in_rev. intros Hin.
  destruct (recommended_origin _ _ _ _ Hin) as (svc & now & player & Hev & Hrec).
  destruct (recommendation_fields _ _ _ _ _ _ Hrec) as (Hs & Hp & Hn & Ht).
  split; [exact Hs|]. exists svc, now, player. repeat split; assumption.
Qed.

Lemma ledger_entries_witness :
  executedActions
    (run Json.parse [RunAnalysis (answering forged_text) t0 alex] initial_state)
  = [forged_entry alex t0]
  /\ forall a,
       In a (executedActions
               (run Json.parse [RunAnalysis (answering forged_text) t0 alex]
                  initial_state)) ->
       status a = "EXECUTED"
       /\ exists svc now player,
            In (RunAnalysis svc now player)
               [RunAnalysis (answering forged_text) t0 alex]
            /\ playerId a = id player
            /\ playerName a = name player
            /\ timestamp a = now.
Proof.
  split; [vm_compute; reflexivity|].
  intros a Hin.
  exact (ledger_entries_come_from_evaluations
           Json.parse [RunAnalysis (answering forged_text) t0 alex] a Hin).
Defined.

(** X5: through any run the ledger never loses or changes an entry and
    gains at most one for each evaluation: the ledger it started with is
    the tail of the ledger it ends with, and what is in front has at most
    as many entries as the run has evaluations. *)
Theorem ledger_grows_by_at_most_one_per_evaluation
    (JSON_parse : string -> option JsValue) (evs : list UIEvent) (st : State) :
  exists new,
    executedActions (run JSON_parse evs st) = (new ++ executedActions st)%list
    /\ (List.length new <= List.length (readings evs))%nat.
Proof.
  exists (rev (recommended JSON_parse (constraints st) evs)).
  split; [apply ledger_run|].
  rewrite length_rev. apply recommended_length.
Qed.

(** ** Tabs *)

Lemma tab_after JSON_parse svc now player st :
  activeTab (fst (handleRunAIAnalysis JSON_parse svc now player st))
  = match recommendation JSON_parse svc now player (constraints st) with
    | Some _ => "actions"
    | None => activeTab st
    end.
Proof.
  unfold handleRunAIAnalysis, recommendation, on_result.
  cbn [constraints setCurrentAnalysis setAnalyzingPlayerId].
  destruct (analyzePlayerData _ _ _ _ _) as [result|]; [|reflexivity].
  destruct (truthy result); [|reflexivity].
  destruct (get_prop result "actionNeeded") as [needed|]; [|reflexivity].
  destruct (truthy needed); [|reflexivity].
  destruct (triggered_action now player result); reflexivity.
Qed.

(** X6: an evaluation moves the operator to another tab exactly when it
    records an action, and then to the action history, which lists the new
    action first; otherwise the tab and the page drawn for it stay. *)
Theorem evaluation_opens_history_only_on_action
    (JSON_parse : string -> option JsValue) (svc : GeminiService) (now : Z)
    (player : Player) (st : State) :
  match recommendation JSON_parse svc now player (constraints st) with
  | Some a =>
      activeTab (fst (handleRunAIAnalysis JSON_parse svc now player st))
        = "actions"
      /\ renderContent (fst (handleRunAIAnalysis JSON_parse svc now player st))
         = ActionHistoryView (a :: executedActions st)
  | None =>
      activeTab (fst (handleRunAIAnalysis JSON_parse svc now player st))
        = activeTab st
      /\ renderContent (fst (handleRunAIAnalysis JSON_parse svc now player st))
         = renderContent st
  end.
Proof.
  pose proof (tab_after JSON_parse svc now player st) as Htab.
  pose proof (ledger_after JSON_parse svc now player st) as Hledger.
  pose proof (constraints_after JSON_parse svc now player st) as Hcs.
  unfold renderContent.
  destruct (recommendation JSON_parse svc now player (constraints st));
    rewrite Htab, Hledger, ?Hcs; split; reflexivity.
Qed.

Lemma menu_tab_active_once tab st :
  In tab (map fst menuItems) -> activeTab st = tab ->
  List.length (active_items st) = 1%nat.
Proof.
  unfold active_items. intros Hin ->. cbn in Hin.
  destruct Hin as [<-|[<-|[<-|[<-|[<-|[]]]]]]; reflexivity.
Qed.

(** On a menu tab the page drawn is the page of that tab, with the props
    of the state. *)
Lemma menu_tab_page tab st :
  In tab (map fst menuItems) -> activeTab st = tab ->
  match renderContent st with
  | DashboardView => activeTab st = "dashboard"
  | PlayerInspectorView cs => activeTab st = "players" /\ cs = constraints st
  | ActionHistoryView actions =>
      activeTab st = "actions" /\ actions = executedActions st
  | DataSandboxView => activeTab st = "sandbox"
  | SafetyRailsView cs => activeTab st = "constraints" /\ cs = constraints st
  end.
Proof.
  unfold renderContent. intros Hin ->. cbn in Hin.
  destruct Hin as [<-|[<-|[<-|[<-|[<-|[]]]]]]; cbn; auto.
Qed.

(** X7: as long as tabs are chosen from the sidebar, the active tab is
    always one of the five menu items, whatever the evaluations in between
    do; so exactly one item is drawn as active, and [renderContent] draws
    the page of the active tab: the dashboard is drawn for the dashboard
    tab only, never as the default of an unknown tab. *)
Theorem active_tab_is_always_a_menu_item
    (JSON_parse : string -> option JsValue) (evs : list UIEvent) (st : State) :
  Forall from_menu evs ->
  In (activeTab st) (map fst menuItems) ->
  In (activeTab (run JSON_parse evs st)) (map fst menuItems)
  /\ List.length (active_items (run JSON_parse evs st)) = 1%nat
  /\ match renderContent (run JSON_parse evs st) with
     | DashboardView => activeTab (run JSON_parse evs st) = "dashboard"
     | PlayerInspectorView cs =>
         activeTab (run JSON_parse evs st) = "players"
         /\ cs = constraints (run JSON_parse evs st)
     | ActionHistoryView actions =>
         activeTab (run JSON_parse evs st) = "actions"
         /\ actions = executedActions (run JSON_parse evs st)
     | DataSandboxView => activeTab (run JSON_parse evs st) = "sandbox"
     | SafetyRailsView cs =>
         activeTab (run JSON_parse evs st) = "constraints"
         /\ cs = constraints (run JSON_parse evs st)
     end.
Proof.
  intros Hmenu Hst.
  assert (H : In (activeTab (run JSON_parse evs st)) (map fst menuItems)).
  { revert st Hst. induction Hmenu as [|ev evs Hev _ IH]; intros st Hst;
      cbn [run]; [exact Hst|].
    apply IH. destruct ev as [svc now player | tab | ]; cbn [step].
    - rewrite tab_after.
      destruct (recommendation JSON_parse svc now player (constraints st));
        [cbn; auto 10 | exact Hst].
    - exact Hev.
    - exact Hst. }
  split; [exact H|].
  split; [exact (menu_tab_active_once _ _ H eq_refl)
         | exact (menu_tab_page _ _ H eq_refl)].
Qed.

Lemma active_tab_witness :
  activeTab (run Json.parse busy_afternoon initial_state) = "actions"
  /\ renderContent (run Json.parse busy_afternoon initial_state)
     = ActionHistoryView
         (executedActions (run Json.parse busy_afternoon initial_state))
  /\ In (activeTab (run Json.parse busy_afternoon initial_state))
       (map fst menuItems)
  /\ List.length (active_items (run Json.parse busy_afternoon initial_state))
     = 1%nat.
Proof.
  split; [vm_compute; reflexivity|]. split; [vm_compute; reflexivity|].
  destruct (active_tab_is_always_a_menu_item
              Json.parse busy_afternoon initial_state) as (Hin & Hone & _).
  - unfold busy_afternoon.
    repeat (apply Forall_cons; [cbn; auto 10|]). apply Forall_nil.
  - cbn. auto 10.
  - split; [exact Hin | exact Hone].
Defined.

(** ** The constraints on the decision path *)

(** X8: the evaluation reads the constraints for one thing only, the
    request it sends.  If the model answers the request the same under
    other constraints, the evaluation under those constraints records,
    shows and throws exactly the same. *)
Theorem evaluation_ignores_constraints
    (JSON_parse : string -> option JsValue) (svc : GeminiService) (now : Z)
    (player : Player) (st : State) (cs : SafetyConstraints) :
  generateContent svc
    {| model := "gemini-3-pro-preview";
       contents := AnalysisPrompt player {| dau := 12000; retention := 40 |} cs |}
  = generateContent svc
      {| model := "gemini-3-pro-preview";
         contents := AnalysisPrompt player {| dau := 12000; retention := 40 |}
                       (constraints st) |} ->
  handleRunAIAnalysis JSON_parse svc now player (setConstraints cs st)
  = (setConstraints cs
       (fst (handleRunAIAnalysis JSON_parse svc now player st)),
     snd (handleRunAIAnalysis JSON_parse svc now player st)).
Proof.
  intros H. unfold handleRunAIAnalysis, analyzePlayerData.
  cbn [constraints setConstraints]. rewrite H. clear H.
  destruct (generateContent svc _) as [err|text]; [reflexivity|].
  destruct (JSON_parse (text_or text "{}")) as [result|]; [|reflexivity].
  unfold on_result.
  destruct (truthy result); [|reflexivity].
  destruct (get_prop result "actionNeeded") as [needed|]; [|reflexivity].
  destruct (truthy needed); [|reflexivity].
  destruct (triggered_action now player result); reflexivity.
Qed.

Lemma evaluation_ignores_constraints_witness :
  handleRunAIAnalysis Json.parse (answering (gift_text "600")) t0
    churned_player (setConstraints negative_caps initial_state)
  = (setConstraints negative_caps
       (fst (handleRunAIAnalysis Json.parse (answering (gift_text "600")) t0
               churned_player initial_state)),
     snd (handleRunAIAnalysis Json.parse (answering (gift_text "600")) t0
            churned_player initial_state)).
Proof.
  apply (evaluation_ignores_constraints
           Json.parse (answering (gift_text "600")) t0 churned_player
           initial_state negative_caps).
  reflexivity.
Defined.

(** ** The action history *)

(** X9: the text that a card of the history shows under Primary Reason,
    [action.primaryReason || action.reasoning], is for every recorded
    action the [reasoning] that the evaluation stored, also when the model
    gave an empty or no [primaryReason] and the reasoning chain stood in. *)
Theorem history_shows_recorded_reasoning
    (JSON_parse : string -> option JsValue) (svc : GeminiService) (now : Z)
    (player : Player) (cs : SafetyConstraints) (a : Action) :
  recommendation JSON_parse svc now player cs = Some a ->
  shown_reason a = reasoning a.
Proof.
  unfold recommendation.
  destruct (analyzePlayerData _ _ _ _ _) as [result|]; [|discriminate].
  destruct (truthy result); [|discriminate].
  destruct (get_prop result "actionNeeded") as [needed|]; [|discriminate].
  destruct (truthy needed); [|discriminate].
  unfold triggered_action, bind.
  destruct (get_prop result "recommendedAction") as [ra|]; [|discriminate].
  destruct (get_prop result "confidence") as [cf|]; [|discriminate].
  destruct (get_prop ra "primaryReason") as [pr|] eqn:Hpr; [|discriminate].
  pose proof (own_props_get ra "primaryReason" pr eq_refl Hpr) as Hspread.
  destruct (truthy pr) eqn:Htruthy.
  - intros [= <-]. unfold shown_reason, spread_prop. cbn [spread reasoning].
    rewrite Hspread, Htruthy. reflexivity.
  - destruct (get_prop result "reasoningChain") as [ch|]; [|discriminate].
    destruct (get_prop ch "priorityAlignment") as [pa|]; [|discriminate].
    intros [= <-]. unfold shown_reason, spread_prop. cbn [spread reasoning].
    rewrite Hspread, Htruthy. reflexivity.
Qed.

Lemma history_shows_recorded_reasoning_witness :
  recommendation Json.parse (answering forged_text) t0 alex
    DEFAULT_SAFETY_CONSTRAINTS = Some (forged_entry alex t0)
  /\ shown_reason (forged_entry alex t0) = JStr "retention first"
  /\ shown_reason (forged_entry alex t0) = reasoning (forged_entry alex t0).
Proof.
  split; [vm_compute; reflexivity|]. split; [reflexivity|].
  apply (history_shows_recorded_reasoning
           Json.parse (answering forged_text) t0 alex
           DEFAULT_SAFETY_CONSTRAINTS (forged_entry alex t0)).
  vm_compute. reflexivity.
Defined.





(** X11: an action that the model recommends without a string [type] is
    recorded all the same, and the console turns to the action history
    with that action as first card, whose badge cannot be computed: the
    rendering of the history throws a TypeError. *)
Theorem untyped_action_breaks_history
    (JSON_parse : string -> option JsValue) (svc : GeminiService) (now : Z)
    (player : Player) (st : State) (a : Action) :
  recommendation JSON_parse svc now player (constraints st) = Some a ->
  (forall s, spread_prop a "type" <> JStr s) ->
  renderContent (fst (handleRunAIAnalysis JSON_parse svc now player st))
    = ActionHistoryView (a :: executedActions st)
  /\ type_badges
       (executedActions (fst (handleRunAIAnalysis JSON_parse svc now player st)))
     = Throw "TypeError".
Proof.
  intros Hrec Htype.
  unfold renderContent. rewrite tab_after, ledger_after, Hrec.
  split; [reflexivity|].
  cbn [type_badges]. unfold type_badge.
  destruct (spread_prop a "type") as [| |b|q|s|items|props] eqn:E;
    try reflexivity.
  exfalso. exact (Htype s eq_refl).
Qed.

Lemma untyped_action_witness :
  recommendation Json.parse (answering untyped_text) t0 sam
    (constraints initial_state) = Some (untyped_entry sam t0)
  /\ renderContent
       (fst (handleRunAIAnalysis Json.parse (answering untyped_text) t0 sam
               initial_state))
     = ActionHistoryView (untyped_entry sam t0 :: executedActions initial_state)
  /\ type_badges
       (executedActions
          (fst (handleRunAIAnalysis Json.parse (answering untyped_text) t0 sam
                  initial_state)))
     = Throw "TypeError".
Proof.
  split; [vm_compute; reflexivity|].
  apply (untyped_action_breaks_history
           Json.parse (answering untyped_text) t0 sam initial_state
           (untyped_entry sam t0)).
  - vm_compute. reflexivity.
  - intros s. discriminate.
Defined.

(** ** The analysis panel *)

Lemma silent_result_state JSON_parse svc now player st result needed :
  analyzePlayerData JSON_parse svc player {| dau := 12000; retention := 40 |}
    (constraints st) = Return result ->
  truthy result = true ->
  get_prop result "actionNeeded" = Return needed ->
  truthy needed = false ->
  handleRunAIAnalysis JSON_parse svc now player st
  = ({| activeTab := activeTab st;
        executedActions := executedActions st;
        constraints := constraints st;
        analyzingPlayerId := None;
        currentAnalysis :=
          Some {| result_props := own_props result;
                  analysis_player := player |} |}, Return tt).
Proof.
  intros Hres Ht Hn Hnt. unfold handleRunAIAnalysis.
  cbn [constraints setCurrentAnalysis setAnalyzingPlayerId].
  rewrite Hres. unfold on_result. rewrite Ht, Hn, Hnt. reflexivity.
Qed.

Lemma panel_without_chain result player :
  get_prop result "reasoningChain" = Return JUndefined
  \/ get_prop result "reasoningChain" = Return JNull ->
  panel_reasoning {| result_props := own_props result;
                     analysis_player := player |} = Throw "TypeError".
Proof.
  intros H. unfold panel_reasoning. cbn [result_props].
  destruct H as [H|H];
    rewrite (own_props_get result "reasoningChain" _ eq_refl H); reflexivity.
Qed.

(** X12: when the model recommends silence and its result has no
    [reasoningChain] (missing or [null]), the evaluation ends normally and
    puts the result on display, but the panel cannot read the reasoning
    texts from it: drawing the panel throws a TypeError. *)
Theorem analysis_without_chain_breaks_panel
    (JSON_parse : string -> option JsValue) (svc : GeminiService) (now : Z)
    (player : Player) (st : State) (result needed : JsValue) :
  analyzePlayerData JSON_parse svc player {| dau := 12000; retention := 40 |}
    (constraints st) = Return result ->
  truthy result = true ->
  get_prop result "actionNeeded" = Return needed ->
  truthy needed = false ->
  (get_prop result "reasoningChain" = Return JUndefined
   \/ get_prop result "reasoningChain" = Return JNull) ->
  handleRunAIAnalysis JSON_parse svc now player st
  = ({| activeTab := activeTab st;
        executedActions := executedActions st;
        constraints := constraints st;
        analyzingPlayerId := None;
        currentAnalysis :=
          Some {| result_props := own_props result;
                  analysis_player := player |} |}, Return tt)
  /\ panel_reasoning {| result_props := own_props result;
                        analysis_player := player |} = Throw "TypeError".
Proof.
  intros Hres Ht Hn Hnt Hchain.
  split; [exact (silent_result_state _ _ _ _ _ _ _ Hres Ht Hn Hnt)|].
  apply panel_without_chain. exact Hchain.
Qed.

Lemma analysis_without_chain_witness :
  handleRunAIAnalysis Json.parse
    (answering (object [field "actionNeeded" "false";
                        field "reasoningChain" "null"]))
    t0 jordan initial_state
  = ({| activeTab := activeTab initial_state;
        executedActions := executedActions initial_state;
        constraints := constraints initial_state;
        analyzingPlayerId := None;
        currentAnalysis :=
          Some {| result_props :=
                    own_props (JObj [("actionNeeded", JBool false);
                                     ("reasoningChain", JNull)]);
                  analysis_player := jordan |} |}, Return tt)
  /\ panel_reasoning
       {| result_props :=
            own_props (JObj [("actionNeeded", JBool false);
                             ("reasoningChain", JNull)]);
          analysis_player := jordan |} = Throw "TypeError".
Proof.
  apply (analysis_without_chain_breaks_panel
           Json.parse
           (answering (object [field "actionNeeded" "false";
                               field "reasoningChain" "null"]))
           t0 jordan initial_state
           (JObj [("actionNeeded", JBool false); ("reasoningChain", JNull)])
           (JBool false)).
  - vm_compute. reflexivity.
  - reflexivity.
  - reflexivity.
  - reflexivity.
  - right. reflexivity.
Defined.

(** X13: a response without text, or with an empty text, is parsed as the
    text of an empty object.  With a parser that reads that text as the
    empty object, the evaluation ends normally with an empty analysis on
    display, records nothing, and leaves a panel that cannot be drawn. *)
Theorem textless_answer_shows_empty_analysis
    (JSON_parse : string -> option JsValue) (svc : GeminiService) (now : Z)
    (player : Player) (st : State) :
  JSON_parse "{}" = Some (JObj []) ->
  (generateContent svc
     {| model := "gemini-3-pro-preview";
        contents := AnalysisPrompt player {| dau := 12000; retention := 40 |}
                      (constraints st) |} = Response None
   \/ generateContent svc
        {| model := "gemini-3-pro-preview";
           contents := AnalysisPrompt player {| dau := 12000; retention := 40 |}
                         (constraints st) |} = Response (Some "")) ->
  handleRunAIAnalysis JSON_parse svc now player st
  = ({| activeTab := activeTab st;
        executedActions := executedActions st;
        constraints := constraints st;
        analyzingPlayerId := None;
        currentAnalysis :=
          Some {| result_props := []; analysis_player := player |} |},
     Return tt)
  /\ panel_reasoning {| result_props := []; analysis_player := player |}
     = Throw "TypeError".
Proof.
  intros Hparse Hresp. split; [|reflexivity].
  apply (silent_result_state JSON_parse svc now player st (JObj []) JUndefined);
    try reflexivity.
  unfold analyzePlayerData.
  destruct Hresp as [-> | ->]; cbn [text_or String.eqb]; rewrite Hparse;
    reflexivity.
Qed.

Lemma textless_answer_witness :
  Json.parse "{}" = Some (JObj [])
  /\ handleRunAIAnalysis Json.parse mute_service t0 sam initial_state
     = ({| activeTab := activeTab initial_state;
           executedActions := executedActions initial_state;
           constraints := constraints initial_state;
           analyzingPlayerId := None;
           currentAnalysis :=
             Some {| result_props := []; analysis_player := sam |} |},
        Return tt)
  /\ panel_reasoning {| result_props := []; analysis_player := sam |}
     = Throw "TypeError".
Proof.
  split; [vm_compute; reflexivity|].
  apply (textless_answer_shows_empty_analysis
           Json.parse mute_service t0 sam initial_state).
  - vm_compute. reflexivity.
  - left. reflexivity.
Defined.

(** ** The thinking animation *)

Lemma ticks_from n :
  forall t, 0 <= t <= 3 -> ticks n t = Z.min (t + Z.of_nat n) 3.
Proof.
  induction n as [|n IH]; intros t Ht.
  - cbn [ticks]. lia.
  - cbn [ticks]. unfold next_thought.
    destruct (Z.ltb_spec t 3); rewrite IH by lia; lia.
Qed.

(** X14: while an analysis is in flight the step counter, which starts at
    0, counts the ticks up to 3 and stays there; so the progress bar is
    between 25 and 100 percent wide, and the number of lit stages is one
    more than the counter, all four from the third tick on. *)
Theorem thinking_animation_stays_in_range (n : nat) :
  ticks n 0 = Z.min (Z.of_nat n) 3
  /\ 25 <= progress_width (ticks n 0) <= 100
  /\ List.length
       (filter (step_lit (ticks n 0)) (seq 0 (List.length steps)))
     = (Nat.min n 3 + 1)%nat.
Proof.
  assert (H : ticks n 0 = Z.min (Z.of_nat n) 3).
  { rewrite ticks_from by lia. reflexivity. }
  split; [exact H|]. rewrite H. split; [unfold progress_width; lia|].
  destruct n as [|[|[|n]]]; try reflexivity.
  replace (Z.min (Z.of_nat (S (S (S n)))) 3) with 3 by lia.
  replace (Nat.min (S (S (S n))) 3) with 3%nat by lia.
  reflexivity.
Qed.

(** ** The data sandbox *)

(** X15: a normalisation that returns stores its result under the index of
    the sample, leaves the results of the other samples as they were and
    clears the busy flag; the output pane of the sample shows the result
    exactly when the result is truthy, so an answer such as [null] is
    stored but not shown. *)
Theorem normalization_stores_under_its_index
    (JSON_parse : string -> option JsValue) (svc : GeminiService)
    (idx : nat) (raw : string) (sb : SandboxState) (v : JsValue) :
  normalizeRawData JSON_parse svc raw = Return v ->
  snd (handleNormalize JSON_parse svc idx raw sb) = Return tt
  /\ normalizingIdx (fst (handleNormalize JSON_parse svc idx raw sb)) = None
  /\ normalized_at (fst (handleNormalize JSON_parse svc idx raw sb)) idx = v
  /\ (forall j, j <> idx ->
        normalized_at (fst (handleNormalize JSON_parse svc idx raw sb)) j
        = normalized_at sb j)
  /\ shows_output (fst (handleNormalize JSON_parse svc idx raw sb)) idx
     = truthy v.
Proof.
  intros H. unfold handleNormalize, shows_output, normalized_at. rewrite H.
  cbn [fst snd setNormalizingIdx setNormalizedData normalizingIdx
       normalizedData].
  rewrite props_get_set_same. repeat split.
  intros j Hj. apply props_get_set_other.
  intros E. apply Hj. symmetry. exact (index_key_inj _ _ E).
Qed.

Lemma normalization_stores_witness :
  normalizeRawData Json.parse (answering null_text) backend_sample
    = Return JNull
  /\ snd (handleNormalize Json.parse (answering null_text) 2 backend_sample
            empty_sandbox) = Return tt
  /\ normalizingIdx
       (fst (handleNormalize Json.parse (answering null_text) 2 backend_sample
               empty_sandbox)) = None
  /\ normalized_at
       (fst (handleNormalize Json.parse (answering null_text) 2 backend_sample
               empty_sandbox)) 2 = JNull
  /\ (forall j, j <> 2%nat ->
        normalized_at
          (fst (handleNormalize Json.parse (answering null_text) 2
                  backend_sample empty_sandbox)) j
        = normalized_at empty_sandbox j)
  /\ shows_output
       (fst (handleNormalize Json.parse (answering null_text) 2 backend_sample
               empty_sandbox)) 2 = truthy JNull.
Proof.
  split; [vm_compute; reflexivity|].
  apply (normalization_stores_under_its_index
           Json.parse (answering null_text) 2 backend_sample empty_sandbox
           JNull).
  vm_compute. reflexivity.
Defined.

(** X16: a rejected normalisation call is not caught: [handleNormalize]
    throws the same error, with the busy flag cleared and every result
    stored before still in place. *)
Theorem rejected_normalization_keeps_results
    (JSON_parse : string -> option JsValue) (svc : GeminiService)
    (idx : nat) (raw : string) (sb : SandboxState) (err : string) :
  generateContent svc
    {| model := "gemini-3-flash-preview";
       contents := NormalizePrompt raw |} = Rejected err ->
  handleNormalize JSON_parse svc idx raw sb
  = ({| normalizingIdx := None; normalizedData := normalizedData sb |},
     Throw err).
Proof.
  intros H. unfold handleNormalize, normalizeRawData. rewrite H. reflexivity.
Qed.

Lemma rejected_normalization_witness :
  handleNormalize Json.parse unreachable_service 0 backend_sample
    {| normalizingIdx := None;
       normalizedData := [(index_key 1, JObj [("userId", JStr "1102")])] |}
  = ({| normalizingIdx := None;
        normalizedData := [(index_key 1, JObj [("userId", JStr "1102")])] |},
     Throw "503 Service Unavailable").
Proof.
  apply (rejected_normalization_keeps_results
           Json.parse unreachable_service 0 backend_sample
           {| normalizingIdx := None;
              normalizedData :=
                [(index_key 1, JObj [("userId", JStr "1102")])] |}
           "503 Service Unavailable").
  reflexivity.
Defined.

(** X17: when the model's answer to a sample has a non-empty text that is
    not JSON, the sandbox does not fail: it stores under the sample's index
    the failure marker with the sample's raw text in it, and the output
    pane shows it. *)
Theorem unparseable_normalization_is_shown
    (JSON_parse : string -> option JsValue) (svc : GeminiService)
    (idx : nat) (raw text : string) (sb : SandboxState) :
  generateContent svc
    {| model := "gemini-3-flash-preview";
       contents := NormalizePrompt raw |} = Response (Some text) ->
  text <> "" ->
  JSON_parse text = None ->
  snd (handleNormalize JSON_parse svc idx raw sb) = Return tt
  /\ normalized_at (fst (handleNormalize JSON_parse svc idx raw sb)) idx
     = JObj [("error", JStr "Failed to normalize"); ("raw", JStr raw)]
  /\ shows_output (fst (handleNormalize JSON_parse svc idx raw sb)) idx = true.
Proof.
  intros Hresp Hne Hparse.
  unfold handleNormalize, shows_output, normalized_at, normalizeRawData.
  rewrite Hresp. cbn [text_or].
  apply String.eqb_neq in Hne. rewrite Hne, Hparse.
  cbn [fst snd setNormalizingIdx setNormalizedData normalizingIdx
       normalizedData].
  rewrite props_get_set_same. repeat split.
Qed.

Lemma unparseable_normalization_shown_witness :
  Json.parse "I cannot parse this log." = None
  /\ snd (handleNormalize Json.parse (answering "I cannot parse this log.") 2
            backend_sample empty_sandbox) = Return tt
  /\ normalized_at
       (fst (handleNormalize Json.parse (answering "I cannot parse this log.")
               2 backend_sample empty_sandbox)) 2
     = JObj [("error", JStr "Failed to normalize");
             ("raw", JStr backend_sample)]
  /\ shows_output
       (fst (handleNormalize Json.parse (answering "I cannot parse this log.")
               2 backend_sample empty_sandbox)) 2 = true.
Proof.
  split; [vm_compute; reflexivity|].
  apply (unparseable_normalization_is_shown
           Json.parse (answering "I cannot parse this log.") 2 backend_sample
           "I cannot parse this log." empty_sandbox).
  - reflexivity.
  - discriminate.
  - vm_compute. reflexivity.
Defined.
